(** * PyLog2MongoDB: a shallow embedding of [dblog.py]

    [dblog.py] holds two classes.  [MongoFormatter.format] turns a
    [logging.LogRecord] into a Python dictionary (the BSON document), and
    [MongoHandler] owns a pymongo connection and inserts one such document
    per emitted record.

    Python values are an inductive type, a dictionary is a [gmap] keyed by
    strings, a [LogRecord] is its [__dict__], and code that can raise an
    exception returns an [outcome].  What the program only calls (Python
    builtins, [logging], [bson], [pymongo]) is an interface: the theorems
    hold for every implementation of it. *)

From stdpp Require Import gmap strings list fin_maps.
From Stdlib Require Import ZArith Floats.SpecFloat.

Set Warnings "-register-all,-clear-no-such-hyp".
Local Open Scope string_scope.

(** ** Python values *)

(** [VObj] is an object the program never looks inside (an exception
    instance, a traceback, a class, a [Timestamp]); such an object has the
    default truth value. *)
Inductive value : Type :=
| VNone
| VBool (b : bool)
| VInt (n : Z)
| VFloat (f : spec_float)
| VStr (s : string)
| VTuple (items : list value)
| VDict (d : gmap string value)
| VObj (id : positive).

(** The truth value Python gives [v] in [if v:]. *)
Definition truthy (v : value) : bool :=
  match v with
  | VNone => false
  | VBool b => b
  | VInt n => negb (n =? 0)%Z
  | VFloat (S754_zero _) => false
  | VFloat _ => true
  | VStr s => negb (String.eqb s "")
  | VTuple items => negb (Nat.eqb (length items) 0)
  | VDict d => negb (Nat.eqb (size d) 0)
  | VObj _ => true
  end.

(** [v is not None]. *)
Definition is_not_None (v : value) : bool :=
  match v with
  | VNone => false
  | _ => true
  end.

(** ** Exceptions *)

(** The classes of the builtin and pymongo hierarchies that the program
    can meet, each with its direct base class. *)
Inductive exn_class : Set :=
| BaseException | Exception | KeyboardInterrupt | SystemExit
| TypeError | AttributeError | ValueError
| LookupError | KeyError | IndexError
| ArithmeticError | OverflowError
| PyMongoError | ConnectionFailure | AutoReconnect
| OperationFailure | DuplicateKeyError
| CollectionInvalid | InvalidName | ConfigurationError.

Definition superclass (c : exn_class) : option exn_class :=
  match c with
  | BaseException => None
  | Exception | KeyboardInterrupt | SystemExit => Some BaseException
  | TypeError | AttributeError | ValueError
  | LookupError | ArithmeticError | PyMongoError => Some Exception
  | KeyError | IndexError => Some LookupError
  | OverflowError => Some ArithmeticError
  | ConnectionFailure | OperationFailure
  | CollectionInvalid | InvalidName | ConfigurationError => Some PyMongoError
  | AutoReconnect => Some ConnectionFailure
  | DuplicateKeyError => Some OperationFailure
  end.

#[global] Instance exn_class_eq_dec : EqDecision exn_class.
Proof. solve_decision. Defined.

(** [issubclass_upto n c d]: [d] is reached from [c] in at most [n] steps
    along [superclass]. *)
Fixpoint issubclass_upto (n : nat) (c d : exn_class) : bool :=
  if bool_decide (c = d) then true
  else match n with
       | O => false
       | S n' => match superclass c with
                 | Some b => issubclass_upto n' b d
                 | None => false
                 end
       end.

(** No class is more than four steps below [BaseException]. *)
Definition issubclass (c d : exn_class) : bool := issubclass_upto 4 c d.

Record exn : Set := Exn { exn_type : exn_class; exn_message : string }.

(** [except d:] catches [e]. *)
Definition isinstance (e : exn) (d : exn_class) : bool :=
  issubclass (exn_type e) d.

(** ** Results of code that may raise *)

Inductive outcome (A : Type) : Type :=
| Return (a : A)
| Raise (e : exn).
Arguments Return {A} a.
Arguments Raise {A} e.

#[global] Instance outcome_ret : MRet outcome := λ A a, Return a.
#[global] Instance outcome_bind : MBind outcome := λ A B f m,
  match m with
  | Return a => f a
  | Raise e => Raise e
  end.

(** ** Builtins on values *)

(** [record.name]: an attribute is an entry of the record's [__dict__]. *)
Definition getattr (record : gmap string value) (name : string) : outcome value :=
  match record !! name with
  | Some v => Return v
  | None => Raise (Exn AttributeError name)
  end.

(** The position Python reads for index [i] in a sequence of length [n]. *)
Definition sequence_index (n : nat) (i : Z) : option nat :=
  let j := (if i <? 0 then i + Z.of_nat n else i)%Z in
  if ((0 <=? j) && (j <? Z.of_nat n))%Z then Some (Z.to_nat j) else None.

(** ** What the program calls but does not define *)

(** The parts of Python, [logging] and [bson] used by [MongoFormatter]. *)
Class Runtime := {
  (** [int(v)] for a string or an object *)
  int_other : value → outcome Z;
  (** [v[i]] for an object *)
  getitem_other : value → Z → outcome value;
  (** [str(v)] *)
  str : value → outcome string;
  (** [record.getMessage()] *)
  getMessage : gmap string value → outcome value;
  (** [logging.Formatter.formatException(exc_info)] *)
  formatException : value → outcome string;
  (** [bson.timestamp.Timestamp(time, inc)] *)
  Timestamp : Z → Z → outcome value;
  (** the [__dict__] of [logging.LogRecord('', '', '', '', '', '', '', '')] *)
  default_record : gmap string value;
}.

Section MongoFormatter.
Context `{Runtime}.

(** [int(v)]: numbers are truncated toward zero. *)
Definition int (v : value) : outcome Z :=
  match v with
  | VInt n => Return n
  | VBool b => Return (if b then 1 else 0)%Z
  | VFloat (S754_zero _) => Return 0%Z
  | VFloat (S754_infinity _) =>
      Raise (Exn OverflowError "cannot convert float infinity to integer")
  | VFloat S754_nan => Raise (Exn ValueError "cannot convert float NaN to integer")
  | VFloat (S754_finite s m e) =>
      let a := Z.shiftl (Z.pos m) e in Return (if s then - a else a)%Z
  | VNone | VTuple _ | VDict _ =>
      Raise (Exn TypeError "int() argument must be a string or a number")
  | VStr _ | VObj _ => int_other v
  end.

(** [v[i]] for an integer [i]. *)
Definition getitem (v : value) (i : Z) : outcome value :=
  match v with
  | VTuple items =>
      match sequence_index (length items) i ≫= (items !!.) with
      | Some x => Return x
      | None => Raise (Exn IndexError "tuple index out of range")
      end
  | VStr s =>
      match sequence_index (String.length s) i ≫= (λ j, String.get j s) with
      | Some c => Return (VStr (String c ""))
      | None => Raise (Exn IndexError "string index out of range")
      end
  | VDict _ => Raise (Exn KeyError "key")
  | VObj _ => getitem_other v i
  | VNone | VBool _ | VInt _ | VFloat _ =>
      Raise (Exn TypeError "object is not subscriptable")
  end.

(** [DEFAULT_PROPERTIES = logging.LogRecord(...).__dict__.keys()] *)
Definition DEFAULT_PROPERTIES : gset string := dom default_record.

(** The dictionary literal: the standard document. *)
Definition standard_document (record : gmap string value)
  : outcome (gmap string value) :=
  created ← getattr record "created";
  time ← int created;
  msecs ← getattr record "msecs";
  inc ← int msecs;
  timestamp ← Timestamp time inc;
  levelname ← getattr record "levelname";
  thread ← getattr record "thread";
  threadName ← getattr record "threadName";
  message ← getMessage record;
  name ← getattr record "name";
  pathname ← getattr record "pathname";
  module ← getattr record "module";
  funcName ← getattr record "funcName";
  lineno ← getattr record "lineno";
  mret (<["lineNumber" := lineno]> (
        <["method" := funcName]> (
        <["module" := module]> (
        <["fileName" := pathname]> (
        <["loggerName" := name]> (
        <["message" := message]> (
        <["threadName" := threadName]> (
        <["thread" := thread]> (
        <["level" := levelname]> (
        <["timestamp" := timestamp]> ∅)))))))))).

(** The value under ['exception']. *)
Definition exception_document (exc_info : value) : outcome value :=
  exc_value ← getitem exc_info 1;
  message ← str exc_value;
  stackTrace ← formatException exc_info;
  mret (VDict (<["stackTrace" := VStr stackTrace]> (
               <["code" := VInt 0]> (
               <["message" := VStr message]> ∅)))).

(** [if record.exc_info is not None: document.update({'exception': ...})] *)
Definition decorate_exception (record document : gmap string value)
  : outcome (gmap string value) :=
  exc_info ← getattr record "exc_info";
  if is_not_None exc_info then
    exception ← exception_document exc_info;
    mret (<["exception" := exception]> document)
  else mret document.

(** [for key in contextual_extra: document[key] = record.__dict__[key]] *)
Fixpoint copy_extra (keys : list string) (record document : gmap string value)
  : outcome (gmap string value) :=
  match keys with
  | [] => mret document
  | key :: keys' =>
      match record !! key with
      | Some v => copy_extra keys' record (<[key := v]> document)
      | None => Raise (Exn KeyError key)
      end
  end.

(** The third block of [format]: fields of the record beyond the default
    ones. *)
Definition decorate_extra (record document : gmap string value)
  : outcome (gmap string value) :=
  if negb (Nat.eqb (size DEFAULT_PROPERTIES) (size record)) then
    let contextual_extra := dom record ∖ DEFAULT_PROPERTIES in
    if negb (Nat.eqb (size contextual_extra) 0) then
      copy_extra (elements contextual_extra) record document
    else mret document
  else mret document.

(** [MongoFormatter.format(self, record)] *)
Definition format (record : gmap string value) : outcome (gmap string value) :=
  document ← standard_document record;
  document ← decorate_exception record document;
  decorate_extra record document.

End MongoFormatter.

(** ** The store driver and the logging framework around the handler *)

(** Objects handed out by pymongo. *)
Inductive client_handle : Set := ClientObj (id : positive).
Inductive database_handle : Set := DatabaseObj (id : positive).
Inductive collection_handle : Set := CollectionObj (id : positive).

(** A formatter object: its class and the arguments it was built with. *)
Inductive formatter_class : Set :=
| MongoFormatter_class
| Formatter_class
| OtherFormatter_class (id : positive).

Record Formatter : Type := {
  formatter_type : formatter_class;
  formatter_fmt : value;
  formatter_datefmt : value;
}.

(** [MongoFormatter()] *)
Definition MongoFormatter : Formatter :=
  {| formatter_type := MongoFormatter_class;
     formatter_fmt := VNone;
     formatter_datefmt := VNone |}.

(** [logging._defaultFormatter = Formatter()] *)
Definition _defaultFormatter : Formatter :=
  {| formatter_type := Formatter_class;
     formatter_fmt := VNone;
     formatter_datefmt := VNone |}.

(** Every call the handler makes on pymongo or on the logging framework,
    with its arguments. *)
Inductive call : Type :=
| Call_MongoClient_url (url : value)
| Call_MongoClient_host_port (host port : value) (options : gmap string value)
| Call_client_getitem (c : client_handle) (name : value)
| Call_authenticate (d : database_handle) (username password : value)
| Call_Collection_capped (d : database_handle) (name max size : value)
| Call_database_getitem (d : database_handle) (name : value)
| Call_insert (c : collection_handle) (document : value)
| Call_logout (d : database_handle)
| Call_close (c : client_handle)
| Call_handleError (record : gmap string value).

(** What each call answers, given the calls made before it. *)
Class Driver := {
  (** [pymongo.MongoClient(url)] *)
  MongoClient_url : list call → value → outcome client_handle;
  (** [pymongo.MongoClient(host=host, port=port, **options)] *)
  MongoClient_host_port :
    list call → value → value → gmap string value → outcome client_handle;
  (** [connection[name]] *)
  client_getitem : list call → client_handle → value → outcome database_handle;
  (** [db.authenticate(username, password)] *)
  authenticate : list call → database_handle → value → value → outcome value;
  (** [Collection(db, name, capped=True, max=max, size=size)] *)
  Collection_capped :
    list call → database_handle → value → value → value → outcome collection_handle;
  (** [db[name]] *)
  database_getitem : list call → database_handle → value → outcome collection_handle;
  (** [collection.insert(document)] *)
  insert : list call → collection_handle → value → outcome value;
  (** [db.logout()] *)
  logout : list call → database_handle → outcome value;
  (** [connection.close()] *)
  close_client : list call → client_handle → outcome value;
  (** [logging.Handler.handleError(self, record)] *)
  handleError : list call → gmap string value → outcome unit;
  (** [fmt.format(record)] for a formatter of another class *)
  format_other : Formatter → gmap string value → outcome value;
}.

(** ** MongoHandler *)

(** The attributes of a handler.  [connnection] is the attribute the URL
    branch of [_connect] assigns; it does not exist ([None]) before that
    assignment.  For the other optional attributes [None] is Python's
    [None]. *)
Record MongoHandler : Type := {
  level : value;
  url : value;
  host : value;
  port : value;
  database_name : value;
  collection_name : value;
  username : value;
  password : value;
  fail_silently : value;
  connection : option client_handle;
  connnection : option client_handle;
  db : option database_handle;
  collection : option collection_handle;
  authenticated : value;
  formatter : option Formatter;
  capped : value;
  capped_max : value;
  capped_size : value;
  options : gmap string value;
}.

Definition set_connection (c : option client_handle) (self : MongoHandler) : MongoHandler :=
  {| level := level self; url := url self; host := host self; port := port self;
     database_name := database_name self; collection_name := collection_name self;
     username := username self; password := password self;
     fail_silently := fail_silently self;
     connection := c; connnection := connnection self; db := db self;
     collection := collection self; authenticated := authenticated self;
     formatter := formatter self; capped := capped self;
     capped_max := capped_max self; capped_size := capped_size self;
     options := options self |}.

Definition set_connnection (c : option client_handle) (self : MongoHandler) : MongoHandler :=
  {| level := level self; url := url self; host := host self; port := port self;
     database_name := database_name self; collection_name := collection_name self;
     username := username self; password := password self;
     fail_silently := fail_silently self;
     connection := connection self; connnection := c; db := db self;
     collection := collection self; authenticated := authenticated self;
     formatter := formatter self; capped := capped self;
     capped_max := capped_max self; capped_size := capped_size self;
     options := options self |}.

Definition set_db (d : option database_handle) (self : MongoHandler) : MongoHandler :=
  {| level := level self; url := url self; host := host self; port := port self;
     database_name := database_name self; collection_name := collection_name self;
     username := username self; password := password self;
     fail_silently := fail_silently self;
     connection := connection self; connnection := connnection self; db := d;
     collection := collection self; authenticated := authenticated self;
     formatter := formatter self; capped := capped self;
     capped_max := capped_max self; capped_size := capped_size self;
     options := options self |}.

Definition set_authenticated (a : value) (self : MongoHandler) : MongoHandler :=
  {| level := level self; url := url self; host := host self; port := port self;
     database_name := database_name self; collection_name := collection_name self;
     username := username self; password := password self;
     fail_silently := fail_silently self;
     connection := connection self; connnection := connnection self; db := db self;
     collection := collection self; authenticated := a;
     formatter := formatter self; capped := capped self;
     capped_max := capped_max self; capped_size := capped_size self;
     options := options self |}.

Definition set_collection (c : option collection_handle) (self : MongoHandler) : MongoHandler :=
  {| level := level self; url := url self; host := host self; port := port self;
     database_name := database_name self; collection_name := collection_name self;
     username := username self; password := password self;
     fail_silently := fail_silently self;
     connection := connection self; connnection := connnection self; db := db self;
     collection := c; authenticated := authenticated self;
     formatter := formatter self; capped := capped self;
     capped_max := capped_max self; capped_size := capped_size self;
     options := options self |}.

(** *** Methods as state transformers

    A method runs on the handler object and on the list of calls made so
    far, oldest first; it leaves both changed and returns or raises. *)
Definition method (A : Type) : Type :=
  MongoHandler * list call → (MongoHandler * list call) * outcome A.

#[global] Instance method_ret : MRet method := λ A a st, (st, Return a).
#[global] Instance method_bind : MBind method := λ A B f m st,
  match m st with
  | (st', Return a) => f a st'
  | (st', Raise e) => (st', Raise e)
  end.

Definition raise {A : Type} (e : exn) : method A := λ st, (st, Raise e).

(** Read [self]. *)
Definition get_self : method MongoHandler := λ st, (st, Return (fst st)).

(** Assign an attribute of [self]. *)
Definition assign (f : MongoHandler → MongoHandler) : method unit :=
  λ st, ((f (fst st), snd st), Return tt).

(** Make the call [c]; [answer] is the driver's answer after the calls
    made so far. *)
Definition invoke {A : Type} (c : call) (answer : list call → outcome A) : method A :=
  λ st, ((fst st, (snd st ++ [c])%list), answer (snd st)).

(** Code that touches neither the handler nor the store. *)
Definition pure_code {A : Type} (o : outcome A) : method A := λ st, (st, o).

(** The body of a [try:], with its exception handed to the [except]. *)
Definition try {A : Type} (m : method A) : method (outcome A) :=
  λ st, (fst (m st), Return (snd (m st))).

Section MongoHandler.
Context `{Runtime} `{Driver}.

(** [fmt.format(record)], by the class of [fmt]. *)
Definition Formatter_format (fmt : Formatter) (record : gmap string value)
  : outcome value :=
  match formatter_type fmt with
  | MongoFormatter_class => document ← format record; mret (VDict document)
  | _ => format_other fmt record
  end.

(** [logging.Handler.format(self, record)] *)
Definition Handler_format (record : gmap string value) : method value :=
  self ← get_self;
  let fmt := match formatter self with
             | Some f => f
             | None => _defaultFormatter
             end in
  pure_code (Formatter_format fmt record).

(** The [try:] block of [_connect]. *)
Definition connect_client : method unit :=
  self ← get_self;
  if truthy (url self) then
    c ← invoke (Call_MongoClient_url (url self))
               (λ h, MongoClient_url h (url self));
    assign (set_connnection (Some c))
  else
    c ← invoke (Call_MongoClient_host_port (host self) (port self) (options self))
               (λ h, MongoClient_host_port h (host self) (port self) (options self));
    assign (set_connection (Some c)).

(** [self.collection = ...], capped or not. *)
Definition resolve_collection (d : database_handle) : method unit :=
  self ← get_self;
  if truthy (capped self) then
    r ← try (invoke (Call_Collection_capped d (collection_name self)
                       (capped_max self) (capped_size self))
               (λ h, Collection_capped h d (collection_name self)
                       (capped_max self) (capped_size self)));
    match r with
    | Return c => assign (set_collection (Some c))
    | Raise e =>
        if isinstance e OperationFailure then
          c ← invoke (Call_database_getitem d (collection_name self))
                     (λ h, database_getitem h d (collection_name self));
          assign (set_collection (Some c))
        else raise e
    end
  else
    c ← invoke (Call_database_getitem d (collection_name self))
               (λ h, database_getitem h d (collection_name self));
    assign (set_collection (Some c)).

(** [MongoHandler._connect(self)] *)
Definition _connect : method unit :=
  r ← try connect_client;
  match r with
  | Raise e =>
      if isinstance e PyMongoError then
        self ← get_self;
        if truthy (fail_silently self) then mret tt else raise e
      else raise e
  | Return _ =>
      self ← get_self;
      d ← match connection self with
          | Some c => invoke (Call_client_getitem c (database_name self))
                             (λ h, client_getitem h c (database_name self))
          | None => raise (Exn TypeError "'NoneType' object is not subscriptable")
          end;
      assign (set_db (Some d));;
      (if is_not_None (username self) && is_not_None (password self) then
         a ← invoke (Call_authenticate d (username self) (password self))
                    (λ h, authenticate h d (username self) (password self));
         assign (set_authenticated a)
       else mret tt);;
      resolve_collection d
  end.

(** [MongoHandler.close(self)] *)
Definition close : method unit :=
  self ← get_self;
  (if truthy (authenticated self) then
     match db self with
     | Some d => invoke (Call_logout d) (λ h, logout h d);; mret tt
     | None => raise (Exn AttributeError "'NoneType' object has no attribute 'logout'")
     end
   else mret tt);;
  self ← get_self;
  match connection self with
  | Some c => invoke (Call_close c) (λ h, close_client h c);; mret tt
  | None => mret tt
  end.

(** [MongoHandler.emit(self, record)] *)
Definition emit (record : gmap string value) : method unit :=
  self ← get_self;
  match collection self with
  | Some c =>
      r ← try (document ← Handler_format record;
               invoke (Call_insert c document) (λ h, insert h c document));
      match r with
      | Return _ => mret tt
      | Raise e =>
          if isinstance e Exception then
            self ← get_self;
            if negb (truthy (fail_silently self)) then
              invoke (Call_handleError record) (λ h, handleError h record)
            else mret tt
          else raise e
      end
  | None => mret tt
  end.

(** The arguments of [MongoHandler.__init__]. *)
Record arguments : Type := {
  arg_level : value;
  arg_url : value;
  arg_host : value;
  arg_port : value;
  arg_database_name : value;
  arg_collection : value;
  arg_username : value;
  arg_password : value;
  arg_fail_silently : value;
  arg_formatter : option Formatter;
  arg_capped : value;
  arg_capped_max : value;
  arg_capped_size : value;
  arg_options : gmap string value;
}.

(** The defaults of the signature ([logging.NOTSET] is 0). *)
Definition default_arguments : arguments :=
  {| arg_level := VInt 0; arg_url := VNone; arg_host := VStr "localhost";
     arg_port := VInt 27017; arg_database_name := VStr "logs";
     arg_collection := VStr "logs"; arg_username := VNone;
     arg_password := VNone; arg_fail_silently := VBool false;
     arg_formatter := None; arg_capped := VBool false;
     arg_capped_max := VInt 1000; arg_capped_size := VInt 1000000;
     arg_options := ∅ |}.

(** The object after the assignments of [__init__], before
    [self._connect()]. *)
Definition new_handler (a : arguments) : MongoHandler :=
  {| level := arg_level a;
     url := arg_url a;
     host := arg_host a;
     port := arg_port a;
     database_name := arg_database_name a;
     collection_name := arg_collection a;
     username := arg_username a;
     password := arg_password a;
     fail_silently := arg_fail_silently a;
     connection := None;
     connnection := None;
     db := None;
     collection := None;
     authenticated := VBool false;
     formatter := Some MongoFormatter;
     capped := arg_capped a;
     capped_max := arg_capped_max a;
     capped_size := arg_capped_size a;
     options := arg_options a |}.

(** [MongoHandler.__init__(self, ...)], started after the calls
    [history]: the handler it leaves, the calls made, and whether the
    constructor returned or raised. *)
Definition __init__ (a : arguments) (history : list call)
  : (MongoHandler * list call) * outcome unit :=
  _connect (new_handler a, history).

(** [for record in records: self.emit(record)], stopping at the first
    exception. *)
Fixpoint emit_all (records : list (gmap string value)) : method unit :=
  match records with
  | [] => mret tt
  | record :: records' => emit record;; emit_all records'
  end.

End MongoHandler.

(** ** Vocabulary of the specification *)

Section Vocabulary.
Context `{Runtime} `{Driver}.

(** The ten keys of the standard document. *)
Definition fixed_keys : gset string :=
  {[ "timestamp"; "level"; "thread"; "threadName"; "message";
     "loggerName"; "fileName"; "module"; "method"; "lineNumber" ]}.

(** The event's attribute names minus the baseline reference set. *)
Definition extension_fields (record : gmap string value) : gset string :=
  dom record ∖ DEFAULT_PROPERTIES.

(** [{"exception"}] when the event carries exception info, else empty. *)
Definition exception_key (record : gmap string value) : gset string :=
  match record !! "exc_info" with
  | Some exc_info => if is_not_None exc_info then {[ "exception" ]} else ∅
  | None => ∅
  end.


(** The attributes [format] reads next to [created] and [msecs]. *)
Definition read_attributes : list string :=
  [ "levelname"; "thread"; "threadName"; "name"; "pathname"; "module";
    "funcName"; "lineno"; "exc_info" ].

(** An event [format] can read: the attributes it reads exist, and the
    library calls it makes on them return. *)
Record well_formed (record : gmap string value) : Prop := {
  wf_timestamp :
    ∃ created msecs time inc timestamp,
      record !! "created" = Some created ∧ int created = Return time ∧
      record !! "msecs" = Some msecs ∧ int msecs = Return inc ∧
      Timestamp time inc = Return timestamp;
  wf_attributes : ∀ name, name ∈ read_attributes → is_Some (record !! name);
  wf_message : ∃ message, getMessage record = Return message;
  wf_exc_info :
    ∀ exc_info, record !! "exc_info" = Some exc_info →
      is_not_None exc_info = true →
      ∃ exc_value message stackTrace,
        getitem exc_info 1 = Return exc_value ∧
        str exc_value = Return message ∧
        formatException exc_info = Return stackTrace;
}.






(** The formatter [Handler.format] uses. *)
Definition formatter_in_use (self : MongoHandler) : Formatter :=
  match formatter self with
  | Some f => f
  | None => _defaultFormatter
  end.


End Vocabulary.

(** ** A concrete runtime, stores and events *)

(** The default attributes of a [LogRecord] (Python 2.7), with the values
    [LogRecord('', '', '', '', '', '', '', '')] gives them. *)
Definition default_attributes : gmap string value :=
  list_to_map
    [ ("name", VStr ""); ("msg", VStr ""); ("args", VStr "");
      ("levelname", VStr "Level "); ("levelno", VStr "");
      ("pathname", VStr ""); ("filename", VStr "");
      ("module", VStr ""); ("exc_info", VStr ""); ("exc_text", VNone);
      ("lineno", VStr ""); ("funcName", VStr "");
      ("created", VFloat (S754_finite false 3080389934694007 (-21)));
      ("msecs", VFloat (S754_finite false 161742875 (-18)));
      ("relativeCreated", VFloat (S754_finite false 3 (-1)));
      ("thread", VInt 140298168952640); ("threadName", VStr "MainThread");
      ("processName", VStr "MainProcess"); ("process", VInt 4242) ].

(** A runtime in which [str], [getMessage] and [formatException] answer
    as they do for the exception [Exception('exc1')], held as [VObj 2]. *)
Definition python27 : Runtime :=
  {| int_other := λ _, Raise (Exn ValueError "invalid literal for int()");
     getitem_other := λ _ _, Raise (Exn TypeError "object is not subscriptable");
     str := λ v, match v with
                 | VStr s => Return s
                 | VNone => Return "None"
                 | VObj 2 => Return "exc1"
                 | _ => Return "<object>"
                 end;
     getMessage := λ record, getattr record "msg";
     formatException := λ _,
       Return "Traceback (most recent call last): Exception: exc1";
     Timestamp := λ time inc,
       if ((0 <=? time) && (time <? 2 ^ 32) && (0 <=? inc) && (inc <? 2 ^ 32))%Z
       then Return (VTuple [VInt time; VInt inc])
       else Raise (Exn ValueError "time must be contained in [0, 2**32)");
     default_record := default_attributes |}.

(** The event of [logger.info('Hello World')]. *)
Definition hello_record : gmap string value :=
  list_to_map
    [ ("name", VStr "bmclog"); ("msg", VStr "Hello World"); ("args", VTuple []);
      ("levelname", VStr "INFO"); ("levelno", VInt 20);
      ("pathname", VStr "/home/sophia/pyipmi/code/dblog.py");
      ("filename", VStr "dblog.py");
      ("module", VStr "dblog"); ("exc_info", VNone); ("exc_text", VNone);
      ("lineno", VInt 157); ("funcName", VStr "<module>");
      ("created", VFloat (S754_finite false 3080389934694007 (-21)));
      ("msecs", VFloat (S754_finite false 161742875 (-18)));
      ("relativeCreated", VFloat (S754_finite false 3 (-1)));
      ("thread", VInt 140298168952640); ("threadName", VStr "MainThread");
      ("processName", VStr "MainProcess"); ("process", VInt 4242) ].



(** The event of [logger.info('Hello World', extra={'user': 'bob'})]. *)
Definition extra_record : gmap string value :=
  <["user" := VStr "bob"]> hello_record.

(** [extra_record] after a filter ran [del record.levelno]. *)
Definition trimmed_record : gmap string value :=
  delete "levelno" extra_record.

(** The event of [logger.info('Hello World', extra={'exception': 'boom'})]. *)
Definition shadowing_record : gmap string value :=
  <["exception" := VStr "boom"]> hello_record.


(** A store that answers every call. *)
Definition reachable_store : Driver :=
  {| MongoClient_url := λ _ _, Return (ClientObj 1);
     MongoClient_host_port := λ _ _ _ _, Return (ClientObj 1);
     client_getitem := λ _ _ _, Return (DatabaseObj 1);
     authenticate := λ _ _ _ _, Return (VBool true);
     Collection_capped := λ _ _ _ _ _, Return (CollectionObj 1);
     database_getitem := λ _ _ _, Return (CollectionObj 1);
     insert := λ _ _ _, Return (VObj 7);
     logout := λ _ _, Return VNone;
     close_client := λ _ _, Return VNone;
     handleError := λ _ _, Return tt;
     format_other := λ _ record, getattr record "msg" |}.

(** No server listens: [MongoClient] raises [ConnectionFailure]. *)
Definition unreachable_store : Driver :=
  {| MongoClient_url := λ _ _,
       Raise (Exn ConnectionFailure "could not connect to localhost:27017");
     MongoClient_host_port := λ _ _ _ _,
       Raise (Exn ConnectionFailure "could not connect to localhost:27017");
     client_getitem := λ _ _ _, Return (DatabaseObj 1);
     authenticate := λ _ _ _ _, Return (VBool true);
     Collection_capped := λ _ _ _ _ _, Return (CollectionObj 1);
     database_getitem := λ _ _ _, Return (CollectionObj 1);
     insert := λ _ _ _, Return (VObj 7);
     logout := λ _ _, Return VNone;
     close_client := λ _ _, Return VNone;
     handleError := λ _ _, Return tt;
     format_other := λ _ record, getattr record "msg" |}.


(** Every insert is rejected with [OperationFailure]. *)
Definition rejecting_store : Driver :=
  {| MongoClient_url := λ _ _, Return (ClientObj 1);
     MongoClient_host_port := λ _ _ _ _, Return (ClientObj 1);
     client_getitem := λ _ _ _, Return (DatabaseObj 1);
     authenticate := λ _ _ _ _, Return (VBool true);
     Collection_capped := λ _ _ _ _ _, Return (CollectionObj 1);
     database_getitem := λ _ _ _, Return (CollectionObj 1);
     insert := λ _ _ _, Raise (Exn OperationFailure "not master");
     logout := λ _ _, Return VNone;
     close_client := λ _ _, Return VNone;
     handleError := λ _ _, Return tt;
     format_other := λ _ record, getattr record "msg" |}.

(** What [MongoFormatter.format] makes of [hello_record]. *)
Definition hello_document : value :=
  VDict (list_to_map
    [ ("timestamp", VTuple [VInt 1468844382; VInt 617]);
      ("level", VStr "INFO"); ("thread", VInt 140298168952640);
      ("threadName", VStr "MainThread"); ("message", VStr "Hello World");
      ("loggerName", VStr "bmclog");
      ("fileName", VStr "/home/sophia/pyipmi/code/dblog.py");
      ("module", VStr "dblog"); ("method", VStr "<module>");
      ("lineNumber", VInt 157) ]).

(** [MongoHandler(url='mongodb://localhost:27017')] *)
Definition url_arguments : arguments :=
  {| arg_level := VInt 0; arg_url := VStr "mongodb://localhost:27017";
     arg_host := VStr "localhost"; arg_port := VInt 27017;
     arg_database_name := VStr "logs"; arg_collection := VStr "logs";
     arg_username := VNone; arg_password := VNone;
     arg_fail_silently := VBool false; arg_formatter := None;
     arg_capped := VBool false; arg_capped_max := VInt 1000;
     arg_capped_size := VInt 1000000; arg_options := ∅ |}.

(** [MongoHandler(fail_silently=True)] *)
Definition silent_arguments : arguments :=
  {| arg_level := VInt 0; arg_url := VNone;
     arg_host := VStr "localhost"; arg_port := VInt 27017;
     arg_database_name := VStr "logs"; arg_collection := VStr "logs";
     arg_username := VNone; arg_password := VNone;
     arg_fail_silently := VBool true; arg_formatter := None;
     arg_capped := VBool false; arg_capped_max := VInt 1000;
     arg_capped_size := VInt 1000000; arg_options := ∅ |}.

(** [MongoHandler(username='sophia', password='secret', capped=True)] *)
Definition capped_arguments : arguments :=
  {| arg_level := VInt 0; arg_url := VNone;
     arg_host := VStr "localhost"; arg_port := VInt 27017;
     arg_database_name := VStr "logs"; arg_collection := VStr "logs";
     arg_username := VStr "sophia"; arg_password := VStr "secret";
     arg_fail_silently := VBool false; arg_formatter := None;
     arg_capped := VBool true; arg_capped_max := VInt 1000;
     arg_capped_size := VInt 1000000; arg_options := ∅ |}.


(** ** DBLogger *)


Section DBLogger.
Context `{Driver}.



End DBLogger.

(** ** More vocabulary *)

(** A number: [None] it is not, and it cannot be subscripted. *)
Definition is_number (v : value) : bool :=
  match v with
  | VBool _ | VInt _ | VFloat _ => true
  | _ => false
  end.

(** The calls [emit] can make. *)
Definition is_emit_call (c : call) : bool :=
  match c with
  | Call_insert _ _ | Call_handleError _ => true
  | _ => false
  end.




(** ** More concrete events, stores and arguments *)

(** The event of [logger.info('Hello World', exc_info=False)]. *)
Definition flagged_record : gmap string value :=
  <["exc_info" := VBool false]> hello_record.

(** A record without [lineno]. *)
Definition cut_record : gmap string value := delete "lineno" hello_record.


(** The server goes away after the connection: creating a collection and
    logging out raise [AutoReconnect]. *)
Definition vanishing_store : Driver :=
  {| MongoClient_url := λ _ _, Return (ClientObj 1);
     MongoClient_host_port := λ _ _ _ _, Return (ClientObj 1);
     client_getitem := λ _ _ _, Return (DatabaseObj 1);
     authenticate := λ _ _ _ _, Return (VBool true);
     Collection_capped := λ _ _ _ _ _, Raise (Exn AutoReconnect "connection closed");
     database_getitem := λ _ _ _, Return (CollectionObj 1);
     insert := λ _ _ _, Return (VObj 7);
     logout := λ _ _, Raise (Exn AutoReconnect "connection closed");
     close_client := λ _ _, Return VNone;
     handleError := λ _ _, Return tt;
     format_other := λ _ record, getattr record "msg" |}.




(** The handler [MongoHandler(username='sophia', password='secret',
    capped=True)] leaves on [reachable_store]. *)
Definition ready_handler : MongoHandler :=
  set_collection (Some (CollectionObj 1))
    (set_authenticated (VBool true)
       (set_db (Some (DatabaseObj 1))
          (set_connection (Some (ClientObj 1)) (new_handler capped_arguments)))).

(** * Properties of [MongoFormatter.format] *)

Section FormatterFacts.
Context `{Runtime}.

Lemma getattr_Some (record : gmap string value) name v :
  record !! name = Some v → getattr record name = Return v.
Proof. intros Hv. unfold getattr. by rewrite Hv. Qed.

(** The copy loop returns when every key is an attribute of the record,
    and then a key of the list has the record's value and any other key
    keeps the document's. *)
Lemma copy_extra_lookup keys (record document : gmap string value) :
  (∀ key, key ∈ keys → is_Some (record !! key)) →
  ∃ document', copy_extra keys record document = Return document' ∧
    ∀ key, document' !! key
           = if decide (key ∈ keys) then record !! key else document !! key.
Proof.
  revert document.
  induction keys as [|k keys IH]; intros document Hkeys; simpl.
  - exists document. split; [done|]. intros key.
    destruct (decide (key ∈ [])) as [Hin|_]; [by apply elem_of_nil in Hin|done].
  - destruct (Hkeys k) as [v Hv]; [by left|]. rewrite Hv.
    destruct (IH (<[k:=v]> document)) as (document' & Hrun & Hlook).
    { intros key Hin. apply Hkeys. by right. }
    exists document'. split; [done|]. intros key. rewrite Hlook.
    destruct (decide (key ∈ keys)) as [Hin|Hout].
    + rewrite decide_True; [done|by right].
    + destruct (decide (key = k)) as [->|Hne].
      * rewrite lookup_insert_eq, decide_True; [done|by left].
      * rewrite lookup_insert_ne by done.
        rewrite decide_False; [done|].
        intros [?|?]%elem_of_cons; done.
Qed.

(** The third block of [format] always returns.  Either the two lengths
    agree and the document is left as it is, or every extension field
    is copied. *)
Lemma decorate_extra_cases (record document : gmap string value) :
  ∃ document', decorate_extra record document = Return document' ∧
    ((size DEFAULT_PROPERTIES = size record ∧ document' = document) ∨
     (∀ key, document' !! key
             = if decide (key ∈ extension_fields record)
               then record !! key else document !! key)).
Proof.
  unfold decorate_extra.
  destruct (Nat.eqb_spec (size DEFAULT_PROPERTIES) (size record)) as [Heq|Hne]; simpl.
  { exists document. split; [done|]. by left. }
  fold (extension_fields record).
  destruct (Nat.eqb_spec (size (extension_fields record)) 0) as [Hz|Hnz]; simpl.
  - exists document. split; [done|]. right. intros key.
    apply size_empty_inv in Hz.
    rewrite decide_False; [done|]. intros Hin. by apply Hz in Hin.
  - destruct (copy_extra_lookup (elements (extension_fields record))
                record document) as (document' & Hrun & Hlook).
    { intros key Hin. apply elem_of_elements in Hin.
      apply elem_of_dom. unfold extension_fields in Hin.
      by apply elem_of_difference in Hin as [Hin _]. }
    exists document'. split; [done|]. right. intros key. rewrite Hlook.
    destruct (decide (key ∈ extension_fields record)) as [Hin|Hout].
    + rewrite decide_True; [done|]. by apply elem_of_elements.
    + rewrite decide_False; [done|]. by rewrite elem_of_elements.
Qed.



(** A key that is not an extension field is never touched. *)
Lemma decorate_extra_other (record document : gmap string value) :
  ∃ document', decorate_extra record document = Return document' ∧
    ∀ key, key ∉ extension_fields record → document' !! key = document !! key.
Proof.
  destruct (decorate_extra_cases record document)
    as (document' & Hrun & [[_ Hsame]|Hlook]); exists document'.
  - split; [done|]. intros key _. by rewrite Hsame.
  - split; [done|]. intros key Hout. rewrite Hlook. by rewrite decide_False.
Qed.

(** The dictionary literal has the ten fixed keys. *)
Lemma standard_document_keys (record : gmap string value) :
  well_formed record →
  ∃ document, standard_document record = Return document ∧
              dom document = fixed_keys.
Proof.
  intros [Hts Hattr [message Hmsg] _].
  destruct Hts as (created & msecs & time & inc & ts & Hc & Hci & Hm & Hmi & Hts).
  assert (∀ name, name ∈ read_attributes →
                  ∃ v, getattr record name = Return v) as Hget.
  { intros name Hin. destruct (Hattr name Hin) as [v Hv].
    exists v. by apply getattr_Some. }
  destruct (Hget "levelname") as [levelname Hlevelname]; [set_solver|].
  destruct (Hget "thread") as [thread Hthread]; [set_solver|].
  destruct (Hget "threadName") as [threadName HthreadName]; [set_solver|].
  destruct (Hget "name") as [name Hname]; [set_solver|].
  destruct (Hget "pathname") as [pathname Hpathname]; [set_solver|].
  destruct (Hget "module") as [module Hmodule]; [set_solver|].
  destruct (Hget "funcName") as [funcName HfuncName]; [set_solver|].
  destruct (Hget "lineno") as [lineno Hlineno]; [set_solver|].
  unfold standard_document.
  rewrite (getattr_Some _ _ _ Hc), (getattr_Some _ _ _ Hm). simpl.
  rewrite Hci. simpl. rewrite Hmi. simpl. rewrite Hts. simpl.
  rewrite Hlevelname, Hthread, HthreadName. simpl. rewrite Hmsg. simpl.
  rewrite Hname, Hpathname, Hmodule, HfuncName, Hlineno. simpl.
  eexists. split; [reflexivity|].
  rewrite !dom_insert_L, dom_empty_L. unfold fixed_keys. set_solver.
Qed.

(** The second block of [format]: with exception info the document gets
    the three-entry mapping under ['exception'], without it the document
    is left as it is. *)
Lemma decorate_exception_cases (record document : gmap string value) :
  well_formed record →
  ∃ exc_info, record !! "exc_info" = Some exc_info ∧
    if is_not_None exc_info then
      ∃ exc_value message stackTrace,
        getitem exc_info 1 = Return exc_value ∧
        str exc_value = Return message ∧
        formatException exc_info = Return stackTrace ∧
        decorate_exception record document
        = Return (<["exception" :=
                     VDict (<["stackTrace" := VStr stackTrace]> (
                            <["code" := VInt 0]> (
                            <["message" := VStr message]> ∅)))]> document)
    else decorate_exception record document = Return document.
Proof.
  intros [_ Hattr _ Hexc].
  destruct (Hattr "exc_info") as [exc_info Hei]; [set_solver|].
  exists exc_info. split; [done|].
  unfold decorate_exception. rewrite (getattr_Some _ _ _ Hei). simpl.
  destruct (is_not_None exc_info) eqn:Hnn; [|done].
  destruct (Hexc exc_info Hei Hnn) as (exc_value & message & stackTrace & Hv & Hs & Hf).
  exists exc_value, message, stackTrace. repeat split; try done.
  unfold exception_document. rewrite Hv. simpl. rewrite Hs. simpl.
  rewrite Hf. by simpl.
Qed.

End FormatterFacts.

(** ** Concrete events *)

Ltac solve_attributes :=
  let name := fresh "name" in
  let Hin := fresh "Hin" in
  intros name Hin;
  repeat (apply elem_of_cons in Hin as [->|Hin]; [vm_compute; eauto|]);
  by apply elem_of_nil in Hin.

Ltac solve_timestamp :=
  do 5 eexists; repeat split; vm_compute; reflexivity.

Ltac by_computation := apply (bool_decide_unpack _); vm_compute; exact I.

(** An event without exception info is well formed for [python27] once
    its attributes are there. *)
Ltac solve_well_formed_plain :=
  split;
  [ solve_timestamp
  | solve_attributes
  | eexists; vm_compute; reflexivity
  | let ei := fresh "ei" in
    let Hei := fresh "Hei" in
    let Hnn := fresh "Hnn" in
    intros ei Hei Hnn; vm_compute in Hei; injection Hei as <-; discriminate Hnn ].


Lemma hello_record_well_formed : @well_formed python27 hello_record.
Proof. solve_well_formed_plain. Qed.

Lemma extra_record_well_formed : @well_formed python27 extra_record.
Proof. solve_well_formed_plain. Qed.

Lemma trimmed_record_well_formed : @well_formed python27 trimmed_record.
Proof. solve_well_formed_plain. Qed.

Lemma shadowing_record_well_formed : @well_formed python27 shadowing_record.
Proof. solve_well_formed_plain. Qed.



(** The example of the module's docstring. *)
Example format_hello_record :
  @format python27 hello_record
  = Return (list_to_map
      [ ("timestamp", VTuple [VInt 1468844382; VInt 617]);
        ("level", VStr "INFO"); ("thread", VInt 140298168952640);
        ("threadName", VStr "MainThread"); ("message", VStr "Hello World");
        ("loggerName", VStr "bmclog");
        ("fileName", VStr "/home/sophia/pyipmi/code/dblog.py");
        ("module", VStr "dblog"); ("method", VStr "<module>");
        ("lineNumber", VInt 157) ]).
Proof. vm_compute. reflexivity. Qed.

(** * The claims on [MongoFormatter.format] *)

Section FormatterClaims.
Context `{Runtime}.

Lemma exception_not_fixed : "exception" ∉ fixed_keys.
Proof. by_computation. Qed.



(** C7, as amended.  For every log event without exception info and
    without an extension field named [exception], [format] returns a
    document that has no [exception] key. *)
Theorem format_without_exception (record : gmap string value) :
  well_formed record →
  record !! "exc_info" = Some VNone →
  "exception" ∉ extension_fields record →
  ∃ document, format record = Return document ∧
              document !! "exception" = None.
Proof.
  intros Hwf Hnone Hout.
  destruct (standard_document_keys record Hwf) as (d0 & Hd0 & Hdom0).
  destruct (decorate_exception_cases record d0 Hwf) as (exc_info & Hei & Hexc).
  rewrite Hnone in Hei. injection Hei as <-. simpl in Hexc.
  destruct (decorate_extra_other record d0) as (d2 & Hd2 & Hlook).
  exists d2. split.
  - unfold format. rewrite Hd0. simpl. rewrite Hexc. by simpl.
  - rewrite (Hlook _ Hout). apply not_elem_of_dom. rewrite Hdom0.
    apply exception_not_fixed.
Qed.


End FormatterClaims.



(** C7: an event without exception info whose document has an
    [exception] key, the extension field of that name. *)
Lemma format_without_exception_counterexample :
  @well_formed python27 shadowing_record ∧
  shadowing_record !! "exc_info" = Some VNone ∧
  ∃ document, @format python27 shadowing_record = Return document ∧
              document !! "exception" = Some (VStr "boom").
Proof.
  split; [apply shadowing_record_well_formed|].
  split; [vm_compute; reflexivity|].
  eexists. split; vm_compute; reflexivity.
Qed.

Lemma format_without_exception_witness :
  ∃ document, @format python27 hello_record = Return document ∧
              document !! "exception" = None.
Proof.
  apply (@format_without_exception python27 hello_record).
  - apply hello_record_well_formed.
  - vm_compute. reflexivity.
  - apply (bool_decide_unpack _). vm_compute. exact I.
Defined.



(** * Properties of [MongoHandler] *)

(** Unfold the plumbing of [method] and compute. *)
Ltac run_method :=
  unfold mbind, method_bind, mret, method_ret, try, invoke, assign,
         get_self, raise, pure_code; simpl.

(** Case analysis on a scrutinee that holds no other case analysis. *)
Ltac case_innermost :=
  match goal with
  | |- context [match ?x with _ => _ end] =>
      lazymatch x with
      | context [match _ with _ => _ end] => fail
      | _ => destruct x eqn:?
      end
  end.

Section HandlerFacts.
Context `{Runtime} `{Driver}.

Lemma connect_client_run (self : MongoHandler) (history : list call) :
  connect_client (self, history)
  = if truthy (url self) then
      match MongoClient_url history (url self) with
      | Return c => ((set_connnection (Some c) self,
                      history ++ [Call_MongoClient_url (url self)])%list, Return tt)
      | Raise e => ((self, history ++ [Call_MongoClient_url (url self)])%list, Raise e)
      end
    else
      match MongoClient_host_port history (host self) (port self) (options self) with
      | Return c => ((set_connection (Some c) self,
                      history ++ [Call_MongoClient_host_port (host self) (port self)
                                    (options self)])%list, Return tt)
      | Raise e => ((self, history ++ [Call_MongoClient_host_port (host self)
                                         (port self) (options self)])%list, Raise e)
      end.
Proof.
  unfold connect_client. run_method.
  destruct (truthy (url self)); run_method.
  - by destruct (MongoClient_url history (url self)).
  - by destruct (MongoClient_host_port history (host self) (port self) (options self)).
Qed.


(** With a URL the client is stored under [connnection], and
    [self.connection[...]] is evaluated on [None]. *)
Lemma connect_url_client (a : arguments) (history : list call) (c : client_handle) :
  truthy (arg_url a) = true →
  MongoClient_url history (arg_url a) = Return c →
  __init__ a history
  = ((set_connnection (Some c) (new_handler a),
      history ++ [Call_MongoClient_url (arg_url a)])%list,
     Raise (Exn TypeError "'NoneType' object is not subscriptable")).
Proof.
  intros Hurl Hclient. unfold __init__, _connect.
  unfold mbind at 1, method_bind at 1, try. rewrite connect_client_run. simpl.
  rewrite Hurl, Hclient. simpl. by run_method.
Qed.






(** [emit] on a handler with a collection: the document is formatted,
    then inserted. *)
Lemma emit_insert (self : MongoHandler) (history : list call)
    (record : gmap string value) (c : collection_handle) (document : value) :
  collection self = Some c →
  Formatter_format (formatter_in_use self) record = Return document →
  emit record (self, history)
  = match insert history c document with
    | Return _ => ((self, history ++ [Call_insert c document])%list, Return tt)
    | Raise e =>
        if isinstance e Exception then
          if negb (truthy (fail_silently self)) then
            ((self, history ++ [Call_insert c document; Call_handleError record])%list,
             handleError (history ++ [Call_insert c document])%list record)
          else ((self, history ++ [Call_insert c document])%list, Return tt)
        else ((self, history ++ [Call_insert c document])%list, Raise e)
    end.
Proof.
  intros Hcoll Hformat. unfold emit, Handler_format. run_method.
  rewrite Hcoll. unfold formatter_in_use in Hformat. simpl. rewrite Hformat. simpl.
  destruct (insert history c document) as [?|e]; simpl; [done|].
  destruct (isinstance e Exception); simpl; [|done].
  destruct (truthy (fail_silently self)); simpl; [done|].
  by rewrite <- app_assoc.
Qed.

End HandlerFacts.

(** * The claims on [MongoHandler] *)

Section HandlerClaims.
Context `{Runtime} `{Driver}.




(** C6.  The handler has a collection, the record formats to
    [document], and inserting [document] raises an error [e] (any class
    derived from [Exception]).  With [fail_silently] true [emit]
    returns, and the insert is its only call.  With [fail_silently]
    false [emit] calls [handleError] on the record, and what [emit]
    gives back is what [handleError] gave: [e] itself is not raised. *)
Theorem emit_insert_failure_reported (self : MongoHandler)
    (history : list call) (record : gmap string value)
    (c : collection_handle) (document : value) (e : exn) :
  collection self = Some c →
  Formatter_format (formatter_in_use self) record = Return document →
  insert history c document = Raise e →
  isinstance e Exception = true →
  emit record (self, history)
  = if truthy (fail_silently self)
    then ((self, history ++ [Call_insert c document])%list, Return tt)
    else ((self, history ++ [Call_insert c document; Call_handleError record])%list,
          handleError (history ++ [Call_insert c document])%list record).
Proof.
  intros Hcoll Hformat Hinsert Hkind.
  rewrite (emit_insert self history record c document Hcoll Hformat).
  rewrite Hinsert, Hkind. by destruct (truthy (fail_silently self)).
Qed.


(** C10.  On a handler without connection and without authenticated
    session [close] returns and makes no call: no logout, no close. *)
Theorem close_unconnected (self : MongoHandler) (history : list call) :
  connection self = None →
  truthy (authenticated self) = false →
  close (self, history) = ((self, history), Return tt).
Proof.
  intros Hconn Hauth. unfold close. run_method.
  rewrite Hauth. simpl. by rewrite Hconn.
Qed.

End HandlerClaims.

(** C1.  [MongoHandler(url='mongodb://localhost:27017')] with a server
    that answers: the client made from the URL is stored under
    [connnection], [connection] stays [None], and the constructor raises
    [TypeError]. *)
Theorem url_construction_raises :
  ∃ self,
    @__init__ reachable_store url_arguments []
    = ((self, [Call_MongoClient_url (VStr "mongodb://localhost:27017")]),
       Raise (Exn TypeError "'NoneType' object is not subscriptable")) ∧
    connnection self = Some (ClientObj 1) ∧
    connection self = None ∧ db self = None ∧ collection self = None.
Proof.
  exists (set_connnection (Some (ClientObj 1)) (new_handler url_arguments)).
  split; [|by repeat split].
  by apply (@connect_url_client reachable_store url_arguments [] (ClientObj 1)).
Qed.




Lemma emit_insert_failure_reported_witness :
  @emit python27 rejecting_store hello_record
    (set_collection (Some (CollectionObj 1)) (new_handler default_arguments), [])
  = ((set_collection (Some (CollectionObj 1)) (new_handler default_arguments),
      [ Call_insert (CollectionObj 1) hello_document;
        Call_handleError hello_record ]),
     Return tt).
Proof.
  apply (@emit_insert_failure_reported python27 rejecting_store
           (set_collection (Some (CollectionObj 1)) (new_handler default_arguments))
           [] hello_record (CollectionObj 1) hello_document
           (Exn OperationFailure "not master")).
  - reflexivity.
  - vm_compute. reflexivity.
  - reflexivity.
  - reflexivity.
Defined.

Lemma close_unconnected_witness :
  @close unreachable_store
    (new_handler silent_arguments,
     [Call_MongoClient_host_port (VStr "localhost") (VInt 27017) ∅])
  = ((new_handler silent_arguments,
      [Call_MongoClient_host_port (VStr "localhost") (VInt 27017) ∅]),
     Return tt).
Proof.
  apply (@close_unconnected unreachable_store (new_handler silent_arguments)
           [Call_MongoClient_host_port (VStr "localhost") (VInt 27017) ∅]);
    reflexivity.
Defined.

(** * Further properties of [MongoFormatter.format] *)

(** Case analysis, in the hypothesis [H], on a scrutinee that holds no
    other case analysis. *)
Ltac case_innermost_in H :=
  match type of H with
  | context [match ?x with _ => _ end] =>
      lazymatch x with
      | context [match _ with _ => _ end] => fail
      | _ => destruct x eqn:?
      end
  end.

Section FormatterMore.
Context `{Runtime}.

(** The three blocks of [format] on a well-formed event. *)
Lemma format_stages (record : gmap string value) :
  well_formed record →
  ∃ d0 d1 document,
    standard_document record = Return d0 ∧
    decorate_exception record d0 = Return d1 ∧
    decorate_extra record d1 = Return document ∧
    format record = Return document ∧
    dom d0 = fixed_keys ∧
    dom d1 = fixed_keys ∪ exception_key record ∧
    (∀ key, key ≠ "exception" → d1 !! key = d0 !! key) ∧
    (∀ key, key ∉ extension_fields record → document !! key = d1 !! key).
Proof.
  intros Hwf.
  destruct (standard_document_keys record Hwf) as (d0 & Hd0 & Hdom0).
  destruct (decorate_exception_cases record d0 Hwf) as (exc_info & Hei & Hexc).
  assert (∃ d1, decorate_exception record d0 = Return d1 ∧
                dom d1 = fixed_keys ∪ exception_key record ∧
                ∀ key, key ≠ "exception" → d1 !! key = d0 !! key)
    as (d1 & Hd1 & Hdom1 & Hsame).
  { unfold exception_key. rewrite Hei. destruct (is_not_None exc_info).
    - destruct Hexc as (? & ? & ? & _ & _ & _ & Hrun).
      eexists. split; [exact Hrun|]. split.
      + rewrite dom_insert_L, Hdom0. apply (comm_L (∪)).
      + intros key Hne. by rewrite lookup_insert_ne.
    - exists d0. split; [done|]. split; [|done].
      rewrite Hdom0. by rewrite (right_id_L ∅ (∪)). }
  destruct (decorate_extra_other record d1) as (document & Hrun & Hother).
  exists d0, d1, document. repeat split; try done.
  unfold format. rewrite Hd0. simpl. rewrite Hd1. by simpl.
Qed.

(** What the dictionary literal holds under each key. *)
Lemma standard_document_fields (record d0 : gmap string value) :
  standard_document record = Return d0 →
  ∃ created msecs time inc timestamp message,
    record !! "created" = Some created ∧ int created = Return time ∧
    record !! "msecs" = Some msecs ∧ int msecs = Return inc ∧
    Timestamp time inc = Return timestamp ∧
    getMessage record = Return message ∧
    d0 !! "timestamp" = Some timestamp ∧
    d0 !! "level" = record !! "levelname" ∧
    d0 !! "thread" = record !! "thread" ∧
    d0 !! "threadName" = record !! "threadName" ∧
    d0 !! "message" = Some message ∧
    d0 !! "loggerName" = record !! "name" ∧
    d0 !! "fileName" = record !! "pathname" ∧
    d0 !! "module" = record !! "module" ∧
    d0 !! "method" = record !! "funcName" ∧
    d0 !! "lineNumber" = record !! "lineno".
Proof.
  unfold standard_document, getattr. intros Hrun.
  destruct (record !! "created") as [created|] eqn:Hc; [|discriminate]. simpl in Hrun.
  destruct (int created) as [time|] eqn:Hci; [|discriminate]. simpl in Hrun.
  destruct (record !! "msecs") as [msecs|] eqn:Hm; [|discriminate]. simpl in Hrun.
  destruct (int msecs) as [inc|] eqn:Hmi; [|discriminate]. simpl in Hrun.
  destruct (Timestamp time inc) as [timestamp|] eqn:Hts; [|discriminate]. simpl in Hrun.
  destruct (record !! "levelname") eqn:?; [|discriminate]. simpl in Hrun.
  destruct (record !! "thread") eqn:?; [|discriminate]. simpl in Hrun.
  destruct (record !! "threadName") eqn:?; [|discriminate]. simpl in Hrun.
  destruct (getMessage record) as [message|] eqn:Hmsg; [|discriminate]. simpl in Hrun.
  destruct (record !! "name") eqn:?; [|discriminate]. simpl in Hrun.
  destruct (record !! "pathname") eqn:?; [|discriminate]. simpl in Hrun.
  destruct (record !! "module") eqn:?; [|discriminate]. simpl in Hrun.
  destruct (record !! "funcName") eqn:?; [|discriminate]. simpl in Hrun.
  destruct (record !! "lineno") eqn:?; [|discriminate]. simpl in Hrun.
  injection Hrun as <-.
  exists created, msecs, time, inc, timestamp, message.
  repeat split; try done; by simplify_map_eq.
Qed.

Lemma standard_document_dom (record d0 : gmap string value) :
  standard_document record = Return d0 → dom d0 = fixed_keys.
Proof.
  intros Hrun. unfold standard_document, getattr, mbind, outcome_bind in Hrun.
  repeat (case_innermost_in Hrun; simpl in Hrun; try discriminate Hrun).
  injection Hrun as <-. rewrite !dom_insert_L, dom_empty_L.
  unfold fixed_keys. set_solver.
Qed.

(** X1.  On a well-formed event none of whose extension fields is named
    like a fixed key, each fixed key of the document holds the attribute
    the dictionary literal names: [level] the [levelname], [loggerName]
    the [name], [fileName] the [pathname], [method] the [funcName],
    [lineNumber] the [lineno], [message] the result of [getMessage], and
    [timestamp] the [Timestamp] of the integer parts of [created] and
    [msecs]. *)
Theorem format_fixed_fields (record : gmap string value) :
  well_formed record →
  (∀ key, key ∈ fixed_keys → key ∉ extension_fields record) →
  ∃ document created msecs time inc timestamp message,
    format record = Return document ∧
    record !! "created" = Some created ∧ int created = Return time ∧
    record !! "msecs" = Some msecs ∧ int msecs = Return inc ∧
    Timestamp time inc = Return timestamp ∧
    getMessage record = Return message ∧
    document !! "timestamp" = Some timestamp ∧
    document !! "level" = record !! "levelname" ∧
    document !! "thread" = record !! "thread" ∧
    document !! "threadName" = record !! "threadName" ∧
    document !! "message" = Some message ∧
    document !! "loggerName" = record !! "name" ∧
    document !! "fileName" = record !! "pathname" ∧
    document !! "module" = record !! "module" ∧
    document !! "method" = record !! "funcName" ∧
    document !! "lineNumber" = record !! "lineno".
Proof.
  intros Hwf Hfree.
  destruct (format_stages record Hwf)
    as (d0 & d1 & document & Hd0 & _ & _ & Hrun & _ & _ & Hsame & Hother).
  destruct (standard_document_fields record d0 Hd0)
    as (created & msecs & time & inc & timestamp & message & Hfields).
  assert (∀ key, key ∈ fixed_keys → document !! key = d0 !! key) as Hkeep.
  { intros key Hin. rewrite (Hother key (Hfree key Hin)). apply Hsame.
    intros ->. by apply exception_not_fixed in Hin. }
  exists document, created, msecs, time, inc, timestamp, message.
  destruct Hfields as (? & ? & ? & ? & ? & ? & ? & ? & ? & ? & ? & ? & ? & ? & ? & ?).
  repeat split; try done;
    (rewrite Hkeep; [done|unfold fixed_keys; set_solver]).
Qed.

(** X2.  When the event has as many attributes as the default record,
    the third block of [format] is skipped: the keys of the document are
    the ten fixed ones, and [exception] when exception info is present,
    whatever attributes the event has. *)
Theorem format_equal_length_copies_nothing (record : gmap string value) :
  well_formed record →
  size record = size DEFAULT_PROPERTIES →
  ∃ document, format record = Return document ∧
              dom document = fixed_keys ∪ exception_key record.
Proof.
  intros Hwf Hsize.
  destruct (format_stages record Hwf)
    as (d0 & d1 & document & _ & _ & Hextra & Hrun & _ & Hdom1 & _).
  exists document. split; [done|].
  unfold decorate_extra in Hextra. rewrite Hsize, Nat.eqb_refl in Hextra.
  simpl in Hextra. by injection Hextra as <-.
Qed.

(** X3.  [format] returns a document exactly on the well-formed events:
    when an attribute it reads is missing or a library call it makes
    raises, [format] raises. *)
Theorem format_returns_iff_well_formed (record : gmap string value) :
  (∃ document, format record = Return document) ↔ well_formed record.
Proof.
  split.
  - intros [document Hrun]. unfold format in Hrun.
    destruct (standard_document record) as [d0|] eqn:Hd0; [|discriminate].
    simpl in Hrun.
    destruct (decorate_exception record d0) as [d1|] eqn:Hd1; [|discriminate].
    clear Hrun.
    assert (is_Some (record !! "exc_info")) as [exc_info Hei].
    { unfold decorate_exception, getattr in Hd1.
      destruct (record !! "exc_info"); [by eexists|discriminate]. }
    destruct (standard_document_fields record d0 Hd0)
      as (created & msecs & time & inc & timestamp & message & Hc & Hci & Hm &
          Hmi & Hts & Hmsg & _ & Hl & Ht & Htn & _ & Hn & Hp & Hmo & Hf & Hli).
    split.
    + by exists created, msecs, time, inc, timestamp.
    + pose proof (standard_document_dom record d0 Hd0) as Hdom0.
      assert (∀ key, key ∈ fixed_keys → is_Some (d0 !! key)) as Hsome.
      { intros key Hin. apply elem_of_dom. by rewrite Hdom0. }
      intros name Hin. unfold read_attributes in Hin.
      repeat (apply elem_of_cons in Hin as [->|Hin]);
        try (by apply elem_of_nil in Hin);
        try (by eexists);
        first [ rewrite <- Hl | rewrite <- Ht | rewrite <- Htn | rewrite <- Hn
              | rewrite <- Hp | rewrite <- Hmo | rewrite <- Hf | rewrite <- Hli ];
        apply Hsome; unfold fixed_keys; set_solver.
    + by exists message.
    + intros exc_info' Hei' Hnn. rewrite Hei in Hei'. injection Hei' as <-.
      unfold decorate_exception in Hd1. rewrite (getattr_Some _ _ _ Hei) in Hd1.
      simpl in Hd1. rewrite Hnn in Hd1. unfold exception_document in Hd1.
      destruct (getitem exc_info 1) as [exc_value|] eqn:Hv; [|discriminate].
      simpl in Hd1.
      destruct (str exc_value) as [text|] eqn:Hs; [|discriminate]. simpl in Hd1.
      destruct (formatException exc_info) as [trace|] eqn:Hf'; [|discriminate].
      by exists exc_value, text, trace.
  - intros Hwf. destruct (format_stages record Hwf)
      as (_ & _ & document & _ & _ & _ & Hrun & _). by exists document.
Qed.

(** X4.  When the standard document is built and [exc_info] is a number
    (as [False] or [0], which are not [None]), [format] raises
    [TypeError]: the test is [is not None], and a number has no item 1. *)
Theorem format_number_exc_info (record d0 : gmap string value) (exc_info : value) :
  standard_document record = Return d0 →
  record !! "exc_info" = Some exc_info →
  is_number exc_info = true →
  ∃ e, format record = Raise e ∧ exn_type e = TypeError.
Proof.
  intros Hd0 Hei Hnum. unfold format. rewrite Hd0. simpl.
  unfold decorate_exception. rewrite (getattr_Some _ _ _ Hei). simpl.
  destruct exc_info; try discriminate Hnum; simpl; by eexists.
Qed.

End FormatterMore.

Lemma cut_record_not_formatted :
  ∃ e, @format python27 cut_record = Raise e ∧ exn_type e = AttributeError.
Proof. eexists. split; vm_compute; reflexivity. Qed.

Lemma format_fixed_fields_witness :
  ∃ document created msecs time inc timestamp message,
    @format python27 extra_record = Return document ∧
    extra_record !! "created" = Some created ∧ @int python27 created = Return time ∧
    extra_record !! "msecs" = Some msecs ∧ @int python27 msecs = Return inc ∧
    @Timestamp python27 time inc = Return timestamp ∧
    @getMessage python27 extra_record = Return message ∧
    document !! "timestamp" = Some timestamp ∧
    document !! "level" = extra_record !! "levelname" ∧
    document !! "thread" = extra_record !! "thread" ∧
    document !! "threadName" = extra_record !! "threadName" ∧
    document !! "message" = Some message ∧
    document !! "loggerName" = extra_record !! "name" ∧
    document !! "fileName" = extra_record !! "pathname" ∧
    document !! "module" = extra_record !! "module" ∧
    document !! "method" = extra_record !! "funcName" ∧
    document !! "lineNumber" = extra_record !! "lineno".
Proof.
  apply (@format_fixed_fields python27 extra_record).
  - apply extra_record_well_formed.
  - intros key Hin Hext.
    assert (@extension_fields python27 extra_record = {[ "user" ]}) as Heq.
    { apply (bool_decide_unpack _). vm_compute. exact I. }
    rewrite Heq in Hext. apply elem_of_singleton in Hext as ->.
    revert Hin. apply (bool_decide_unpack _). vm_compute. exact I.
Defined.

Lemma format_equal_length_copies_nothing_witness :
  ∃ document, @format python27 trimmed_record = Return document ∧
              dom document = fixed_keys ∪ exception_key trimmed_record.
Proof.
  apply (@format_equal_length_copies_nothing python27 trimmed_record).
  - apply trimmed_record_well_formed.
  - vm_compute. reflexivity.
Defined.

Lemma format_number_exc_info_witness :
  ∃ e, @format python27 flagged_record = Raise e ∧ exn_type e = TypeError.
Proof.
  eapply (@format_number_exc_info python27 flagged_record _ (VBool false)).
  - vm_compute. reflexivity.
  - vm_compute. reflexivity.
  - reflexivity.
Defined.

(** * Further properties of [MongoHandler] *)

Section HandlerMore.
Context `{Runtime} `{Driver}.

(** X5.  On a handler with a collection, when the record formats to
    [document] and the store accepts it, [emit] makes one call, the
    insert of [document] into the handler's collection, and returns. *)
Theorem emit_inserts_formatted_document (self : MongoHandler)
    (history : list call) (record : gmap string value)
    (c : collection_handle) (document answer : value) :
  collection self = Some c →
  Formatter_format (formatter_in_use self) record = Return document →
  insert history c document = Return answer →
  emit record (self, history)
  = ((self, history ++ [Call_insert c document])%list, Return tt).
Proof.
  intros Hcoll Hformat Hinsert.
  rewrite (emit_insert self history record c document Hcoll Hformat).
  by rewrite Hinsert.
Qed.

(** X6.  When formatting the record raises an error derived from
    [Exception], [emit] makes no insert.  With [fail_silently] true it
    returns without any call; otherwise its only call is [handleError] on
    the record, and it gives back what that call gave. *)
Theorem emit_format_failure (self : MongoHandler) (history : list call)
    (record : gmap string value) (c : collection_handle) (e : exn) :
  collection self = Some c →
  Formatter_format (formatter_in_use self) record = Raise e →
  isinstance e Exception = true →
  emit record (self, history)
  = if truthy (fail_silently self)
    then ((self, history), Return tt)
    else ((self, history ++ [Call_handleError record])%list,
          handleError history record).
Proof.
  intros Hcoll Hformat Hkind. unfold emit, Handler_format. run_method.
  rewrite Hcoll. unfold formatter_in_use in Hformat. simpl. rewrite Hformat.
  simpl. rewrite Hkind. simpl. by destruct (truthy (fail_silently self)).
Qed.

(** X7.  Whatever the store and the formatter answer, [emit] leaves the
    handler as it was and adds at most two calls, each an insert or a
    [handleError]. *)
Theorem emit_frame (self : MongoHandler) (history : list call)
    (record : gmap string value) :
  ∃ calls o,
    emit record (self, history) = ((self, history ++ calls)%list, o) ∧
    (length calls ≤ 2)%nat ∧
    forallb is_emit_call calls = true.
Proof.
  unfold emit, Handler_format. run_method.
  destruct (collection self) as [c|]; simpl.
  - destruct (Formatter_format _ record) as [document|e]; simpl.
    + destruct (insert history c document) as [?|e]; simpl.
      * exists [Call_insert c document], (Return tt). repeat split; simpl; lia.
      * destruct (isinstance e Exception); simpl.
        -- destruct (truthy (fail_silently self)); simpl.
           ++ exists [Call_insert c document], (Return tt).
              repeat split; simpl; lia.
           ++ eexists [Call_insert c document; Call_handleError record], _.
              rewrite <- app_assoc. simpl. repeat split; simpl; lia.
        -- exists [Call_insert c document], (Raise e). repeat split; simpl; lia.
    + destruct (isinstance e Exception); simpl.
      * destruct (truthy (fail_silently self)); simpl.
        -- exists [], (Return tt). rewrite app_nil_r. repeat split; simpl; lia.
        -- eexists [Call_handleError record], _. repeat split; simpl; lia.
      * exists [], (Raise e). rewrite app_nil_r. repeat split; simpl; lia.
  - exists [], (Return tt). rewrite app_nil_r. repeat split; simpl; lia.
Qed.

(** X8.  On a handler with a collection and a store that accepts every
    insert, emitting records that all format makes exactly one insert
    per record, in the order of the records, each of the formatted
    document. *)
Theorem emit_all_inserts_in_order (self : MongoHandler) (c : collection_handle)
    (records : list (gmap string value)) (documents : list value)
    (history : list call) :
  collection self = Some c →
  Forall2 (λ record document,
             Formatter_format (formatter_in_use self) record = Return document)
          records documents →
  (∀ h document, ∃ answer, insert h c document = Return answer) →
  emit_all records (self, history)
  = ((self, history ++ map (Call_insert c) documents)%list, Return tt).
Proof.
  intros Hcoll Hformat Haccept. revert history.
  induction Hformat as [|record document records documents Hdoc _ IH];
    intros history; simpl.
  - by rewrite app_nil_r.
  - destruct (Haccept history document) as [answer Hanswer].
    unfold mbind, method_bind.
    rewrite (emit_insert self history record c document Hcoll Hdoc), Hanswer.
    rewrite IH. by rewrite <- app_assoc.
Qed.

(** X9.  With an authenticated session, a database and a connection,
    when both calls return, [close] logs out of the database first and
    closes the client second, and leaves the handler as it was. *)
Theorem close_logs_out_then_closes (self : MongoHandler) (history : list call)
    (c : client_handle) (d : database_handle) (v w : value) :
  truthy (authenticated self) = true →
  db self = Some d →
  connection self = Some c →
  logout history d = Return v →
  close_client (history ++ [Call_logout d])%list c = Return w →
  close (self, history)
  = ((self, history ++ [Call_logout d; Call_close c])%list, Return tt).
Proof.
  intros Hauth Hdb Hconn Hout Hclose. unfold close. run_method.
  rewrite Hauth, Hdb. simpl. rewrite Hout. simpl. rewrite Hconn. simpl.
  rewrite Hclose. by rewrite <- app_assoc.
Qed.

(** X10.  Without authenticated session, [close] only closes the client. *)
Theorem close_without_session (self : MongoHandler) (history : list call)
    (c : client_handle) (w : value) :
  truthy (authenticated self) = false →
  connection self = Some c →
  close_client history c = Return w →
  close (self, history) = ((self, history ++ [Call_close c])%list, Return tt).
Proof.
  intros Hauth Hconn Hclose. unfold close. run_method.
  rewrite Hauth. simpl. rewrite Hconn. simpl. by rewrite Hclose.
Qed.

(** X11.  When the logout raises, [close] raises that error and the
    client is not closed. *)
Theorem close_logout_failure_skips_close (self : MongoHandler)
    (history : list call) (d : database_handle) (e : exn) :
  truthy (authenticated self) = true →
  db self = Some d →
  logout history d = Raise e →
  close (self, history) = ((self, history ++ [Call_logout d])%list, Raise e).
Proof.
  intros Hauth Hdb Hout. unfold close. run_method.
  rewrite Hauth, Hdb. simpl. by rewrite Hout.
Qed.

(** X12.  [close] does not forget the handles: on a store whose logout
    and close always return, closing twice repeats the logout and the
    close. *)
Theorem close_twice_repeats_calls (self : MongoHandler) (history : list call)
    (c : client_handle) (d : database_handle) :
  truthy (authenticated self) = true →
  db self = Some d →
  connection self = Some c →
  (∀ h, ∃ v, logout h d = Return v) →
  (∀ h, ∃ w, close_client h c = Return w) →
  (close ;; close) (self, history)
  = ((self, history ++ [Call_logout d; Call_close c; Call_logout d; Call_close c])%list,
     Return tt).
Proof.
  intros Hauth Hdb Hconn Hout Hclose.
  assert (∀ h, close (self, h)
               = ((self, h ++ [Call_logout d; Call_close c])%list, Return tt)) as Hone.
  { intros h. destruct (Hout h) as [v Hv].
    destruct (Hclose (h ++ [Call_logout d])%list) as [w Hw].
    unfold close. run_method. rewrite Hauth, Hdb. simpl. rewrite Hv. simpl.
    rewrite Hconn. simpl. rewrite Hw. by rewrite <- app_assoc. }
  unfold mbind, method_bind. rewrite Hone, Hone. by rewrite <- app_assoc.
Qed.

End HandlerMore.

(** * Further properties of the constructors *)

Section ConstructionMore.
Context `{Driver}.








(** X18.  Whatever the store answers and however the constructor ends,
    a handler with a collection has a connection and a database, and a
    handler with an authenticated session has a database: [emit] and
    [close] never find [None] where they use a handle. *)
Theorem construction_invariant (a : arguments) (history : list call) :
  let self := fst (fst (__init__ a history)) in
  (is_Some (collection self) → is_Some (connection self) ∧ is_Some (db self))
  ∧ (truthy (authenticated self) = true → is_Some (db self)).
Proof.
  unfold __init__, _connect, connect_client, resolve_collection. run_method.
  repeat (case_innermost; simpl);
    (split; [intros [? ?]|intros ?]); try done; eauto.
Qed.






End ConstructionMore.

(** ** The further properties on concrete stores *)

(** [ready_handler] is what the constructor leaves on [reachable_store]. *)
Example ready_handler_constructed :
  fst (fst (@__init__ reachable_store capped_arguments [])) = ready_handler.
Proof. reflexivity. Qed.

Lemma emit_inserts_formatted_document_witness :
  @emit python27 reachable_store hello_record (ready_handler, [])
  = ((ready_handler, [Call_insert (CollectionObj 1) hello_document]), Return tt).
Proof.
  apply (@emit_inserts_formatted_document python27 reachable_store ready_handler
           [] hello_record (CollectionObj 1) hello_document (VObj 7)).
  - reflexivity.
  - vm_compute. reflexivity.
  - reflexivity.
Defined.

Lemma emit_format_failure_witness :
  @emit python27 reachable_store flagged_record (ready_handler, [])
  = ((ready_handler, [Call_handleError flagged_record]), Return tt).
Proof.
  apply (@emit_format_failure python27 reachable_store ready_handler []
           flagged_record (CollectionObj 1)
           (Exn TypeError "object is not subscriptable")).
  - reflexivity.
  - vm_compute. reflexivity.
  - reflexivity.
Defined.

Lemma emit_all_inserts_in_order_witness :
  @emit_all python27 reachable_store [hello_record; hello_record] (ready_handler, [])
  = ((ready_handler,
      [ Call_insert (CollectionObj 1) hello_document;
        Call_insert (CollectionObj 1) hello_document ]), Return tt).
Proof.
  apply (@emit_all_inserts_in_order python27 reachable_store ready_handler
           (CollectionObj 1) [hello_record; hello_record]
           [hello_document; hello_document] []).
  - reflexivity.
  - repeat constructor; vm_compute; reflexivity.
  - intros h document. by exists (VObj 7).
Defined.

Lemma close_logs_out_then_closes_witness :
  @close reachable_store (ready_handler, [])
  = ((ready_handler, [Call_logout (DatabaseObj 1); Call_close (ClientObj 1)]),
     Return tt).
Proof.
  apply (@close_logs_out_then_closes reachable_store ready_handler []
           (ClientObj 1) (DatabaseObj 1) VNone VNone); reflexivity.
Defined.

Lemma close_without_session_witness :
  @close reachable_store
    (set_connection (Some (ClientObj 1)) (new_handler default_arguments), [])
  = ((set_connection (Some (ClientObj 1)) (new_handler default_arguments),
      [Call_close (ClientObj 1)]), Return tt).
Proof.
  apply (@close_without_session reachable_store
           (set_connection (Some (ClientObj 1)) (new_handler default_arguments))
           [] (ClientObj 1) VNone); reflexivity.
Defined.

Lemma close_logout_failure_skips_close_witness :
  @close vanishing_store (ready_handler, [])
  = ((ready_handler, [Call_logout (DatabaseObj 1)]),
     Raise (Exn AutoReconnect "connection closed")).
Proof.
  apply (@close_logout_failure_skips_close vanishing_store ready_handler []
           (DatabaseObj 1) (Exn AutoReconnect "connection closed")); reflexivity.
Defined.

Lemma close_twice_repeats_calls_witness :
  (@close reachable_store ;; @close reachable_store) (ready_handler, [])
  = ((ready_handler,
      [ Call_logout (DatabaseObj 1); Call_close (ClientObj 1);
        Call_logout (DatabaseObj 1); Call_close (ClientObj 1) ]), Return tt).
Proof.
  apply (@close_twice_repeats_calls reachable_store ready_handler []
           (ClientObj 1) (DatabaseObj 1)); try reflexivity.
  - intros h. by exists VNone.
  - intros h. by exists VNone.
Defined.






